(** * SessionSettingsBar: the launchpad's settings bar

    A verification development for
    [js_modules/dagster-ui/packages/ui-core/src/launchpad/SessionSettingsBar.tsx].

    The module exports one constant, [SessionSettingsBar], built by the tagged
    template [styled.div`...`] whose two substitutions read [Colors.Gray200] and
    [Colors.White] from the palette of [@dagster-io/ui-components].

    The development has three layers:
    - [Css]: the text of a declaration block read as a list of declarations
      (split at semicolons, split at the first colon, trim), the
      last-declaration-wins lookup, pixel lengths and the two shorthands the
      bar uses;
    - [Styled]: a tagged template as cooked strings and substitutions, and the
      element a styled component renders;
    - the component itself, transcribed from the source text. *)

From Stdlib Require Import Bool Ascii String List NArith.
Import ListNotations.

Local Open Scope list_scope.
Local Open Scope string_scope.

(** ** Strings *)

Module Str.

(** The line feed that separates the lines of the template. *)
Definition nl : string := String (ascii_of_nat 10) EmptyString.

(** [String.prototype.includes]: [needle] occurs in [hay] at some offset. *)
Fixpoint includes (hay needle : string) : bool :=
  String.prefix needle hay ||
  match hay with
  | EmptyString => false
  | String _ rest => includes rest needle
  end.

(** No character of [s] satisfies [p]. *)
Fixpoint free_of (p : ascii -> bool) (s : string) : bool :=
  match s with
  | EmptyString => true
  | String c rest => negb (p c) && free_of p rest
  end.

(** Every character of [s] satisfies [p]. *)
Fixpoint all_chars (p : ascii -> bool) (s : string) : bool :=
  match s with
  | EmptyString => true
  | String c rest => p c && all_chars p rest
  end.

(** The first and the last character, when there is one. *)
Definition first_char (s : string) : option ascii :=
  match s with
  | EmptyString => None
  | String c _ => Some c
  end.

Fixpoint last_char (s : string) : option ascii :=
  match s with
  | EmptyString => None
  | String c EmptyString => Some c
  | String _ rest => last_char rest
  end.

End Str.

(** ** Declaration blocks *)

Module Css.

(** CSS white space: space, tab, line feed, form feed, carriage return. *)
Definition is_space (c : ascii) : bool :=
  match N_of_ascii c with
  | 32%N | 9%N | 10%N | 12%N | 13%N => true
  | _ => false
  end.

Fixpoint trim_left (s : string) : string :=
  match s with
  | EmptyString => EmptyString
  | String c rest => if is_space c then trim_left rest else s
  end.

Fixpoint trim_right (s : string) : string :=
  match s with
  | EmptyString => EmptyString
  | String c rest =>
      match trim_right rest with
      | EmptyString => if is_space c then EmptyString else String c EmptyString
      | kept => String c kept
      end
  end.

Definition trim (s : string) : string := trim_right (trim_left s).

(** [split_on sep s] is the piece before the first [sep] and the pieces after
    it; [pieces] puts them in one list, which is never empty. *)
Fixpoint split_on (sep : ascii) (s : string) : string * list string :=
  match s with
  | EmptyString => (EmptyString, [])
  | String c rest =>
      let (p, ps) := split_on sep rest in
      if Ascii.eqb c sep then (EmptyString, p :: ps) else (String c p, ps)
  end.

Definition pieces (sep : ascii) (s : string) : list string :=
  let (p, ps) := split_on sep s in p :: ps.

(** The text before and after the first [sep], when [sep] occurs. *)
Fixpoint break_at (sep : ascii) (s : string) : option (string * string) :=
  match s with
  | EmptyString => None
  | String c rest =>
      if Ascii.eqb c sep then Some (EmptyString, rest)
      else match break_at sep rest with
           | Some (a, b) => Some (String c a, b)
           | None => None
           end
  end.

Record Declaration := { property : string; value : string }.

(** One piece of a block is a declaration when it has a colon and neither side
    of the colon is blank; anything else (the blank tail after the last
    semicolon, a declaration without a value) is dropped. *)
Definition declaration (piece : string) : option Declaration :=
  match break_at ":" piece with
  | None => None
  | Some (name, val) =>
      match trim name, trim val with
      | EmptyString, _ | _, EmptyString => None
      | n, v => Some {| property := n; value := v |}
      end
  end.

Fixpoint keep {A B : Type} (f : A -> option B) (l : list A) : list B :=
  match l with
  | [] => []
  | x :: rest =>
      match f x with
      | Some y => y :: keep f rest
      | None => keep f rest
      end
  end.

(** The declarations of a block, in source order. *)
Definition declarations (text : string) : list Declaration :=
  keep declaration (pieces ";" text).

(** The value a block gives a property: the last declaration of it wins. *)
Definition computed (ds : list Declaration) (name : string) : option string :=
  fold_left
    (fun found d => if String.eqb (property d) name then Some (value d) else found)
    ds None.

Definition declared (ds : list Declaration) : list string := map property ds.

(** *** Lengths in pixels *)

Definition digit (c : ascii) : option N :=
  let n := N_of_ascii c in
  if (48 <=? n)%N && (n <=? 57)%N then Some (n - 48)%N else None.

(** Decimal digits followed by the unit [px]; [seen] tells whether a digit has
    been read, [acc] is the number read so far. *)
Fixpoint px_from (seen : bool) (acc : N) (s : string) : option N :=
  match s with
  | EmptyString => None
  | String c rest =>
      match digit c with
      | Some d => px_from true (10 * acc + d)%N rest
      | None => if seen && String.eqb s "px" then Some acc else None
      end
  end.

Definition px (s : string) : option N := px_from false 0%N s.

Definition words (s : string) : list string :=
  filter (fun w => negb (String.eqb w EmptyString)) (pieces " " s).

(** *** The [padding] shorthand: one to four lengths. *)

Record Box := { top : N; right : N; bottom : N; left : N }.

Definition padding_of (v : string) : option Box :=
  match map px (words v) with
  | [Some a] => Some {| top := a; right := a; bottom := a; left := a |}
  | [Some a; Some b] => Some {| top := a; right := b; bottom := a; left := b |}
  | [Some a; Some b; Some c] =>
      Some {| top := a; right := b; bottom := c; left := b |}
  | [Some a; Some b; Some c; Some d] =>
      Some {| top := a; right := b; bottom := c; left := d |}
  | _ => None
  end.

(** *** The [border-bottom] shorthand, in the order width, style, colour. *)

Record Border := { width : N; line : string; colour : string }.

Definition border_of (v : string) : option Border :=
  match break_at " " v with
  | None => None
  | Some (w, rest) =>
      match px w, break_at " " (trim_left rest) with
      | Some n, Some (l, c) =>
          Some {| width := n; line := l; colour := trim_left c |}
      | _, _ => None
      end
  end.

(** A property the block leaves alone. *)
Definition unset (ds : list Declaration) (name : string) : bool :=
  match computed ds name with
  | Some _ => false
  | None => true
  end.

(** The pixel length a block gives a property. *)
Definition length_of (ds : list Declaration) (name : string) : option N :=
  match computed ds name with
  | Some v => px v
  | None => None
  end.

(** The padding of a block that sets it through the shorthand only. *)
Definition padding_box (ds : list Declaration) : option Box :=
  if forallb (unset ds)
       ["padding-top"; "padding-right"; "padding-bottom"; "padding-left"]
  then match computed ds "padding" with
       | Some v => padding_of v
       | None => None
       end
  else None.

(** The bottom border of a block that sets it through [border-bottom] only. *)
Definition border_bottom (ds : list Declaration) : option Border :=
  if forallb (unset ds)
       ["border"; "border-width"; "border-style"; "border-color";
        "border-bottom-width"; "border-bottom-style"; "border-bottom-color"]
  then match computed ds "border-bottom" with
       | Some v => border_of v
       | None => None
       end
  else None.

(** *** Flex containers *)

(** The main axis of a flex container: [flex-direction] when the block sets
    it, its initial value [row] when the block sets neither it nor the
    [flex-flow] shorthand.  A block that uses the shorthand is not read. *)
Definition flex_direction (ds : list Declaration) : option string :=
  match computed ds "flex-flow", computed ds "flex-direction" with
  | Some _, _ => None
  | None, Some v => Some v
  | None, None => Some "row"
  end.

(** The box offsets that move a relatively positioned box. *)
Definition offsets : list string := ["top"; "right"; "bottom"; "left"; "inset"].

Definition offset_free (ds : list Declaration) : bool :=
  forallb (unset ds) offsets.

(** A box is the containing block of its absolutely positioned descendants
    when its [position] is anything but [static]. *)
Definition positioning_context (ds : list Declaration) : bool :=
  match computed ds "position" with
  | Some "relative" | Some "absolute" | Some "fixed" | Some "sticky" => true
  | _ => false
  end.

(** *** Colour tokens *)

(** The characters of a colour value: letters, digits, and [# ( ) , . % -]
    and the space that functional notations use between arguments. *)
Definition colour_char (c : ascii) : bool :=
  let n := N_of_ascii c in
  ((48 <=? n) && (n <=? 57) || (65 <=? n) && (n <=? 90) ||
   (97 <=? n) && (n <=? 122))%N ||
  match n with
  | 35%N | 40%N | 41%N | 44%N | 46%N | 37%N | 45%N | 32%N => true
  | _ => false
  end.

Definition outer_ok (c : option ascii) : bool :=
  match c with
  | Some x => negb (is_space x)
  | None => false
  end.

(** A colour token: not empty, made of colour characters, no space at either
    end. *)
Definition colour_token (s : string) : bool :=
  Str.all_chars colour_char s &&
  outer_ok (Str.first_char s) && outer_ok (Str.last_char s).

End Css.

(** ** Styled components *)

Module Styled.

(** What a component renders: text, or an element with children. *)
#[warnings="-register-all"]
Inductive Node :=
| Text (s : string)
| Tag (name : string) (kids : list Node).

Record Props := { children : list Node }.

(** A substitution of a template is a value, spliced as it is, or a function
    of the props, called at each render. *)
Inductive Interpolation :=
| Static (s : string)
| Dynamic (f : Props -> string).

Record Template := {
  strings : list string;
  substitutions : list Interpolation
}.

Definition resolve (props : Props) (i : Interpolation) : string :=
  match i with
  | Static s => s
  | Dynamic f => f props
  end.

(** [strings[0]], then for each substitution its value and the string that
    follows it. *)
Fixpoint weave (props : Props) (xs : list Interpolation) (following : list string)
  : string :=
  match xs with
  | [] => EmptyString
  | x :: xs' =>
      match following with
      | s :: following' => resolve props x ++ s ++ weave props xs' following'
      | [] => resolve props x ++ weave props xs' []
      end
  end.

Definition flatten (t : Template) (props : Props) : string :=
  match strings t with
  | [] => EmptyString
  | s0 :: following => s0 ++ weave props (substitutions t) following
  end.

Record Component := { target : string; rules : Template }.

Record Element := { tag : string; css : string; content : list Node }.

(** [styled.div`...`]: the tag function receives the cooked strings and the
    values of the substitutions, already evaluated. *)
Definition styled (target : string) (strings : list string)
    (substitutions : list Interpolation) : Component :=
  {| target := target;
     rules := {| strings := strings; substitutions := substitutions |} |}.

Definition render (c : Component) (props : Props) : Element :=
  {| tag := target c; css := flatten (rules c) props; content := children props |}.

End Styled.

(** ** The component *)

Import Str Css Styled.

(** [Colors], the palette of [@dagster-io/ui-components].  The module reads two
    of its tokens; the values of the tokens are not part of this file, so they
    are parameters here, and [other_tokens] stands for the rest of the
    palette. *)
Record Palette := {
  Gray200 : string;
  White : string;
  other_tokens : list (string * string)
}.

(** The three cooked strings of the template, with their line feeds. *)
Definition strings_0 : string :=
  Eval cbv in
    nl ++ "  color: white;" ++
    nl ++ "  display: flex;" ++
    nl ++ "  position: relative;" ++
    nl ++ "  border-bottom: 1px solid ".

Definition strings_1 : string :=
  Eval cbv in ";" ++ nl ++ "  background: ".

Definition strings_2 : string :=
  Eval cbv in
    ";" ++
    nl ++ "  align-items: center;" ++
    nl ++ "  height: 47px;" ++
    nl ++ "  padding: 8px 10px;" ++
    nl.

Definition SessionSettingsBar (Colors : Palette) : Component :=
  styled "div"
    [strings_0; strings_1; strings_2]
    [Static (Gray200 Colors); Static (White Colors)].

(** The style text and the declarations of one render. *)
Definition style (Colors : Palette) (props : Props) : string :=
  css (render (SessionSettingsBar Colors) props).

Definition style_declarations (Colors : Palette) (props : Props)
  : list Declaration :=
  declarations (style Colors props).

(** Both tokens the bar reads are colour tokens. *)
Definition palette_ok (Colors : Palette) : bool :=
  colour_token (Gray200 Colors) && colour_token (White Colors).

(** The palette of the example scenario. *)
Definition example_palette : Palette :=
  {| Gray200 := "#B8C1CC"; White := "#FFFFFF"; other_tokens := [] |}.

(** What follows the second substitution, cut at its semicolons. *)
Definition tail_pieces : list string :=
  Eval cbv in snd (split_on ";" strings_2).

(** Two contents to render the bar with. *)
Definition no_children : Props := {| children := [] |}.

Definition some_children : Props :=
  {| children := [Text "Mode"; Tag "button" [Text "Launch"]] |}.

(** ** Further vocabulary *)






(** * Facts *)

(** ** Strings *)

Module StrFacts.

Lemma append_assoc (a b c : string) : (a ++ b) ++ c = a ++ (b ++ c).
Proof. induction a as [|x a IH]; simpl; [reflexivity | now rewrite IH]. Qed.

Lemma prefix_append (n b : string) : String.prefix n (n ++ b) = true.
Proof.
  induction n as [|x n IH]; simpl.
  - now destruct b.
  - destruct (ascii_dec x x) as [_|ne]; [exact IH | now elim ne].
Qed.

Lemma includes_here (hay needle : string) :
  String.prefix needle hay = true -> includes hay needle = true.
Proof. intros H. destruct hay; simpl in *; now rewrite H. Qed.

Lemma includes_skip (a hay needle : string) :
  includes hay needle = true -> includes (a ++ hay) needle = true.
Proof.
  intros H. induction a as [|x a IH]; simpl; [exact H|].
  rewrite IH. apply orb_true_r.
Qed.

Lemma includes_middle (a needle b : string) :
  includes (a ++ needle ++ b) needle = true.
Proof. apply includes_skip, includes_here, prefix_append. Qed.

(** A needle that ends at a semicolon, found between two other texts. *)
Lemma includes_between (a b x r : string) :
  includes (a ++ b ++ x ++ ";" ++ r) (b ++ x ++ ";") = true.
Proof.
  rewrite <- (append_assoc x ";" r), <- (append_assoc b (x ++ ";") r).
  apply includes_middle.
Qed.

Lemma append_nil_r (a : string) : a ++ "" = a.
Proof. induction a as [|x a IH]; simpl; [reflexivity | now rewrite IH]. Qed.

Lemma last_char_append (a s : string) :
  s <> "" -> last_char (a ++ s) = last_char s.
Proof.
  intros Hs. induction a as [|x a IH]; simpl; [reflexivity|].
  rewrite IH. destruct (a ++ s) eqn:E; [|reflexivity].
  destruct a; simpl in E; [now elim Hs | discriminate].
Qed.

Lemma all_chars_free_of (p q : ascii -> bool) (s : string) :
  (forall c, p c = true -> q c = false) ->
  all_chars p s = true -> free_of q s = true.
Proof.
  intros Hpq. induction s as [|c s IH]; simpl; [reflexivity|].
  intros H. apply andb_true_iff in H as [Hc Hs].
  now rewrite (Hpq c Hc), IH.
Qed.

Lemma free_of_append (p : ascii -> bool) (a b : string) :
  free_of p (a ++ b) = free_of p a && free_of p b.
Proof.
  induction a as [|c a IH]; simpl; [reflexivity|].
  now rewrite IH, andb_assoc.
Qed.

End StrFacts.

(** ** Declaration blocks *)

Module CssFacts.

Import StrFacts.

(** Splitting goes through a prefix that has no separator. *)
Lemma split_on_free (sep : ascii) (a b : string) :
  free_of (fun c => Ascii.eqb c sep) a = true ->
  split_on sep (a ++ b) =
  let (p, ps) := split_on sep b in ((a ++ p)%string, ps).
Proof.
  induction a as [|c a IH]; simpl.
  - intros _. now destruct (split_on sep b).
  - intros H. apply andb_true_iff in H as [Hc Ha].
    rewrite (IH Ha). destruct (split_on sep b) as [p ps].
    apply negb_true_iff in Hc. now rewrite Hc.
Qed.

Lemma trim_left_fixed (s : string) :
  outer_ok (first_char s) = true -> trim_left s = s.
Proof.
  destruct s as [|c s]; simpl; [discriminate|].
  intros H. apply negb_true_iff in H. now rewrite H.
Qed.

Lemma trim_right_fixed (s : string) :
  outer_ok (last_char s) = true -> trim_right s = s.
Proof.
  induction s as [|c s IH]; [discriminate|].
  destruct s as [|d s].
  - simpl. intros H. apply negb_true_iff in H. now rewrite H.
  - intros H. change (last_char (String c (String d s))) with (last_char (String d s)) in H.
    specialize (IH H).
    change (trim_right (String c (String d s)))
      with (match trim_right (String d s) with
            | EmptyString => if is_space c then EmptyString else String c EmptyString
            | kept => String c kept
            end).
    now rewrite IH.
Qed.

Lemma outer_ok_nonempty (s : string) :
  outer_ok (last_char s) = true -> s <> "".
Proof. now destruct s. Qed.

Lemma trim_right_append (a s : string) :
  outer_ok (last_char s) = true -> trim_right (a ++ s) = (a ++ s)%string.
Proof.
  intros H. apply trim_right_fixed.
  now rewrite last_char_append by now apply outer_ok_nonempty.
Qed.

Lemma colour_char_plain (c : ascii) :
  colour_char c = true -> Ascii.eqb c ";" = false.
Proof.
  destruct c as [[] [] [] [] [] [] [] []]; intros H;
    first [ reflexivity | discriminate H ].
Qed.


(** A piece with a colon and two non-blank sides is a declaration. *)
Lemma declaration_intro (piece name val : string) :
  break_at ":" piece = Some (name, val) ->
  trim name <> "" -> trim val <> "" ->
  declaration piece = Some {| property := trim name; value := trim val |}.
Proof.
  intros Hb Hn Hv. unfold declaration. rewrite Hb.
  destruct (trim name); [now elim Hn|].
  destruct (trim val); [now elim Hv | reflexivity].
Qed.

Lemma keep_app {A B : Type} (f : A -> option B) (l1 l2 : list A) :
  keep f (l1 ++ l2)%list = (keep f l1 ++ keep f l2)%list.
Proof.
  induction l1 as [|x l1 IH]; simpl; [reflexivity|].
  destruct (f x); simpl; now rewrite IH.
Qed.

Lemma colour_char_no_at (c : ascii) :
  colour_char c = true -> Ascii.eqb c "@" = false.
Proof.
  destruct c as [[] [] [] [] [] [] [] []]; intros H;
    first [ reflexivity | discriminate H ].
Qed.

Section Token.
Variable s : string.
Hypothesis ok : colour_token s = true.

Lemma token_chars : all_chars colour_char s = true.
Proof.
  unfold colour_token in ok.
  now apply andb_true_iff in ok as [H _]; apply andb_true_iff in H as [H _].
Qed.

Lemma token_first : outer_ok (first_char s) = true.
Proof.
  unfold colour_token in ok.
  now apply andb_true_iff in ok as [H _]; apply andb_true_iff in H as [_ H].
Qed.

Lemma token_last : outer_ok (last_char s) = true.
Proof. unfold colour_token in ok. now apply andb_true_iff in ok as [_ H]. Qed.

Lemma token_no_semicolon : free_of (fun c => Ascii.eqb c ";") s = true.
Proof.
  apply all_chars_free_of with (p := colour_char);
    [exact colour_char_plain | exact token_chars].
Qed.

Lemma token_no_at : free_of (fun c => Ascii.eqb c "@") s = true.
Proof.
  apply all_chars_free_of with (p := colour_char);
    [exact colour_char_no_at | exact token_chars].
Qed.

Lemma token_nonempty : s <> "".
Proof. apply outer_ok_nonempty, token_last. Qed.

Lemma token_trim (a : string) :
  trim_right (a ++ s) = (a ++ s)%string.
Proof. apply trim_right_append, token_last. Qed.

End Token.

End CssFacts.

(** ** The style of the bar *)

Module BarFacts.

Import StrFacts CssFacts.

(** The text of a render: the three strings around the two tokens.  No
    substitution is a function, so the props play no part. *)
Lemma style_text (Colors : Palette) (props : Props) :
  style Colors props =
  strings_0 ++ Gray200 Colors ++ strings_1 ++ White Colors ++ strings_2.
Proof. reflexivity. Qed.

Lemma style_includes_border (Colors : Palette) (props : Props) :
  includes (style Colors props)
    ("border-bottom: 1px solid " ++ Gray200 Colors ++ ";") = true.
Proof.
  rewrite style_text.
  exact (includes_between
           (nl ++ "  color: white;" ++ nl ++ "  display: flex;" ++ nl ++
            "  position: relative;" ++ nl ++ "  ")
           "border-bottom: 1px solid " (Gray200 Colors)
           (nl ++ "  background: " ++ White Colors ++ strings_2)).
Qed.

Lemma style_includes_background (Colors : Palette) (props : Props) :
  includes (style Colors props) ("background: " ++ White Colors ++ ";") = true.
Proof.
  rewrite style_text.
  apply (includes_skip strings_0), (includes_skip (Gray200 Colors)).
  exact (includes_between
           (";" ++ nl ++ "  ") "background: " (White Colors)
           (nl ++ "  align-items: center;" ++ nl ++ "  height: 47px;" ++
            nl ++ "  padding: 8px 10px;" ++ nl)).
Qed.

Section Bar.

Variable Colors : Palette.
Variable props : Props.
Hypothesis ok : palette_ok Colors = true.

Let G := Gray200 Colors.
Let W := White Colors.

Lemma gray_ok : colour_token G = true.
Proof. unfold palette_ok in ok. now apply andb_true_iff in ok as [H _]. Qed.

Lemma white_ok : colour_token W = true.
Proof. unfold palette_ok in ok. now apply andb_true_iff in ok as [_ H]. Qed.

Lemma split_white : split_on ";" (W ++ strings_2) = (W, tail_pieces).
Proof.
  rewrite (split_on_free ";" W strings_2 (token_no_semicolon W white_ok)).
  cbv [strings_2]. simpl. now rewrite append_nil_r.
Qed.

Lemma split_gray :
  split_on ";" (G ++ strings_1 ++ W ++ strings_2) =
  (G, (nl ++ "  background: " ++ W) :: tail_pieces).
Proof.
  rewrite (split_on_free ";" G _ (token_no_semicolon G gray_ok)).
  cbv [strings_1]. cbn [append split_on Ascii.eqb Bool.eqb].
  rewrite split_white. simpl. now rewrite append_nil_r.
Qed.

(** The block cut at its semicolons: five pieces up to the second token, then
    the pieces of the last string. *)
Lemma pieces_style :
  pieces ";" (style Colors props) =
  ([ nl ++ "  color: white";
     nl ++ "  display: flex";
     nl ++ "  position: relative";
     nl ++ "  border-bottom: 1px solid " ++ G;
     nl ++ "  background: " ++ W ]%string ++ tail_pieces)%list.
Proof.
  rewrite style_text. unfold pieces. cbv [strings_0].
  cbn [append split_on Ascii.eqb Bool.eqb].
  fold G W. rewrite split_gray. reflexivity.
Qed.

Lemma border_declaration :
  declaration (nl ++ "  border-bottom: 1px solid " ++ G) =
  Some {| property := "border-bottom"; value := "1px solid " ++ G |}.
Proof.
  assert (Hv : trim (" 1px solid " ++ G) = "1px solid " ++ G).
  { unfold trim.
    change (trim_left (" 1px solid " ++ G)) with ("1px solid " ++ G).
    apply token_trim, gray_ok. }
  rewrite <- Hv.
  change "border-bottom" with (trim (nl ++ "  border-bottom")).
  apply declaration_intro.
  - reflexivity.
  - discriminate.
  - rewrite Hv. discriminate.
Qed.

Lemma background_declaration :
  declaration (nl ++ "  background: " ++ W) =
  Some {| property := "background"; value := W |}.
Proof.
  assert (Hv : trim (" " ++ W) = W).
  { unfold trim. change (trim_left (" " ++ W)) with (trim_left W).
    rewrite (trim_left_fixed W (token_first W white_ok)).
    apply trim_right_fixed, token_last, white_ok. }
  rewrite <- Hv at 2.
  change "background" with (trim (nl ++ "  background")).
  apply declaration_intro.
  - reflexivity.
  - discriminate.
  - rewrite Hv. apply token_nonempty, white_ok.
Qed.

(** The declarations of a render, in source order. *)
Lemma declarations_style :
  style_declarations Colors props =
  [ {| property := "color"; value := "white" |};
    {| property := "display"; value := "flex" |};
    {| property := "position"; value := "relative" |};
    {| property := "border-bottom"; value := "1px solid " ++ G |};
    {| property := "background"; value := W |};
    {| property := "align-items"; value := "center" |};
    {| property := "height"; value := "47px" |};
    {| property := "padding"; value := "8px 10px" |} ].
Proof.
  unfold style_declarations, declarations. rewrite pieces_style.
  rewrite keep_app.
  change (keep declaration tail_pieces)
    with [ {| property := "align-items"; value := "center" |};
           {| property := "height"; value := "47px" |};
           {| property := "padding"; value := "8px 10px" |} ].
  cbn [keep].
  rewrite border_declaration, background_declaration.
  reflexivity.
Qed.

(** The block has no at-rule: nothing in it is conditional on the medium. *)
Lemma style_no_at_rule :
  free_of (fun c => Ascii.eqb c "@") (style Colors props) = true.
Proof.
  rewrite style_text, !free_of_append.
  fold G W. now rewrite (token_no_at G gray_ok), (token_no_at W white_ok).
Qed.

(** The border shorthand of the bar, read back. *)
Lemma border_of_gray :
  border_of ("1px solid " ++ G) =
  Some {| width := 1; line := "solid"; colour := G |}.
Proof.
  unfold border_of. simpl.
  now rewrite (trim_left_fixed G (token_first G gray_ok)).
Qed.

End Bar.

End BarFacts.

(** * The properties of the bar *)

Import StrFacts CssFacts BarFacts.

(** Reads the declarations of a render off [declarations_style]. *)
Ltac read_style ok :=
  rewrite (declarations_style _ _ ok).

(** C1: when the palette's tokens are colour tokens, the style of every render
    contains the text [border-bottom: 1px solid G;] with [G] the palette's
    [Gray200], the value it gives [border-bottom] is [1px solid G], and that
    value reads as a border 1 pixel wide, solid, of colour [G].  For
    [Gray200 = #B8C1CC] the text is [border-bottom: 1px solid #B8C1CC;]. *)
Theorem border_bottom_is_gray200 (Colors : Palette) (props : Props) :
  palette_ok Colors = true ->
  includes (style Colors props)
    ("border-bottom: 1px solid " ++ Gray200 Colors ++ ";") = true /\
  computed (style_declarations Colors props) "border-bottom" =
    Some ("1px solid " ++ Gray200 Colors) /\
  border_bottom (style_declarations Colors props) =
    Some {| width := 1; line := "solid"; colour := Gray200 Colors |}.
Proof.
  intros ok. split; [apply style_includes_border|].
  unfold border_bottom. read_style ok.
  split; [reflexivity|].
  cbn [forallb]. unfold unset, computed. cbn [fold_left property value String.eqb Ascii.eqb Bool.eqb andb].
  apply (border_of_gray _ ok).
Qed.

Lemma border_bottom_example :
  palette_ok example_palette = true /\
  includes (style example_palette some_children)
    "border-bottom: 1px solid #B8C1CC;" = true /\
  computed (style_declarations example_palette some_children) "border-bottom" =
    Some "1px solid #B8C1CC" /\
  border_bottom (style_declarations example_palette some_children) =
    Some {| width := 1; line := "solid"; colour := "#B8C1CC" |}.
Proof.
  split; [reflexivity|].
  exact (border_bottom_is_gray200 example_palette some_children eq_refl).
Defined.

(** C2: when the palette's tokens are colour tokens, the style of every render
    contains the text [background: W;] with [W] the palette's [White], and the
    value it gives [background] is [W].  For [White = #FFFFFF] the text is
    [background: #FFFFFF;]. *)
Theorem background_is_white_token (Colors : Palette) (props : Props) :
  palette_ok Colors = true ->
  includes (style Colors props) ("background: " ++ White Colors ++ ";") = true /\
  computed (style_declarations Colors props) "background" = Some (White Colors).
Proof.
  intros ok. split; [apply style_includes_background|].
  read_style ok. reflexivity.
Qed.

Lemma background_example :
  palette_ok example_palette = true /\
  includes (style example_palette some_children) "background: #FFFFFF;" = true /\
  computed (style_declarations example_palette some_children) "background" =
    Some "#FFFFFF".
Proof.
  split; [reflexivity|].
  exact (background_is_white_token example_palette some_children eq_refl).
Defined.

(** C3: whatever the children, the style gives [height] the length 47px, and
    sets neither [min-height] nor [max-height]. *)
Theorem height_is_47px (Colors : Palette) (props : Props) :
  palette_ok Colors = true ->
  length_of (style_declarations Colors props) "height" = Some 47%N /\
  unset (style_declarations Colors props) "min-height" = true /\
  unset (style_declarations Colors props) "max-height" = true.
Proof.
  intros ok. read_style ok. repeat split.
Qed.

Lemma height_example :
  palette_ok example_palette = true /\
  length_of (style_declarations example_palette some_children) "height" =
    Some 47%N /\
  unset (style_declarations example_palette some_children) "min-height" = true /\
  unset (style_declarations example_palette some_children) "max-height" = true.
Proof.
  split; [reflexivity|].
  exact (height_is_47px example_palette some_children eq_refl).
Defined.

(** C4: whatever the children, the style sets [display: flex] and
    [align-items: center], and the main axis is the row: the block sets neither
    [flex-direction] nor [flex-flow], so the initial value applies. *)
Theorem flex_row_centered (Colors : Palette) (props : Props) :
  palette_ok Colors = true ->
  computed (style_declarations Colors props) "display" = Some "flex" /\
  flex_direction (style_declarations Colors props) = Some "row" /\
  computed (style_declarations Colors props) "align-items" = Some "center".
Proof.
  intros ok. read_style ok. repeat split.
Qed.

Lemma flex_row_example :
  palette_ok example_palette = true /\
  computed (style_declarations example_palette no_children) "display" =
    Some "flex" /\
  flex_direction (style_declarations example_palette no_children) = Some "row" /\
  computed (style_declarations example_palette no_children) "align-items" =
    Some "center".
Proof.
  split; [reflexivity|].
  exact (flex_row_centered example_palette no_children eq_refl).
Defined.

(** C5: whatever the children, the padding of the style is 8 pixels at the top
    and the bottom and 10 pixels at the left and the right; the lengths are in
    pixels and the block has no at-rule, so no size of the viewport changes
    them. *)
Theorem padding_is_8_10 (Colors : Palette) (props : Props) :
  palette_ok Colors = true ->
  padding_box (style_declarations Colors props) =
    Some {| top := 8; right := 10; bottom := 8; left := 10 |} /\
  free_of (fun c => Ascii.eqb c "@") (style Colors props) = true.
Proof.
  intros ok. split; [|apply (style_no_at_rule _ _ ok)].
  read_style ok. reflexivity.
Qed.

Lemma padding_example :
  palette_ok example_palette = true /\
  padding_box (style_declarations example_palette some_children) =
    Some {| top := 8; right := 10; bottom := 8; left := 10 |} /\
  free_of (fun c => Ascii.eqb c "@") (style example_palette some_children) = true.
Proof.
  split; [reflexivity|].
  exact (padding_is_8_10 example_palette some_children eq_refl).
Defined.

(** C6: the style of every render gives [color] the value [white]. *)
Theorem color_is_white (Colors : Palette) (props : Props) :
  palette_ok Colors = true ->
  computed (style_declarations Colors props) "color" = Some "white".
Proof.
  intros ok. read_style ok. reflexivity.
Qed.

Lemma color_example :
  palette_ok example_palette = true /\
  computed (style_declarations example_palette some_children) "color" =
    Some "white".
Proof.
  split; [reflexivity|].
  exact (color_is_white example_palette some_children eq_refl).
Defined.

(** C7: the style of every render gives [position] the value [relative], which
    makes the bar the containing block of its absolutely positioned children,
    and it sets none of [top], [right], [bottom], [left], [inset]: the bar
    itself is not moved. *)
Theorem position_is_relative (Colors : Palette) (props : Props) :
  palette_ok Colors = true ->
  computed (style_declarations Colors props) "position" = Some "relative" /\
  positioning_context (style_declarations Colors props) = true /\
  offset_free (style_declarations Colors props) = true.
Proof.
  intros ok. read_style ok. repeat split.
Qed.

Lemma position_example :
  palette_ok example_palette = true /\
  computed (style_declarations example_palette some_children) "position" =
    Some "relative" /\
  positioning_context (style_declarations example_palette some_children) = true /\
  offset_free (style_declarations example_palette some_children) = true.
Proof.
  split; [reflexivity|].
  exact (position_is_relative example_palette some_children eq_refl).
Defined.

(** C8: two renders under palettes that agree on [Gray200] and on [White] have
    the same style text, character for character, whatever the children and
    whatever the other tokens of the palettes. *)
Theorem style_determined_by_tokens
    (Colors1 Colors2 : Palette) (props1 props2 : Props) :
  Gray200 Colors1 = Gray200 Colors2 ->
  White Colors1 = White Colors2 ->
  style Colors1 props1 = style Colors2 props2.
Proof.
  intros Hg Hw. rewrite !style_text. now rewrite Hg, Hw.
Qed.

Lemma style_determined_example :
  style example_palette no_children =
  style {| Gray200 := "#B8C1CC"; White := "#FFFFFF";
           other_tokens := [("Blue500", "#1974E8")] |} some_children.
Proof.
  exact (style_determined_by_tokens example_palette
           {| Gray200 := "#B8C1CC"; White := "#FFFFFF";
              other_tokens := [("Blue500", "#1974E8")] |}
           no_children some_children eq_refl eq_refl).
Defined.

(** C10: the style of every render declares eight properties, in this order:
    [color], [display], [position], [border-bottom], [background],
    [align-items], [height], [padding]; it declares nothing else. *)
Theorem declares_eight_properties (Colors : Palette) (props : Props) :
  palette_ok Colors = true ->
  declared (style_declarations Colors props) =
    [ "color"; "display"; "position"; "border-bottom"; "background";
      "align-items"; "height"; "padding" ].
Proof.
  intros ok. read_style ok. reflexivity.
Qed.

Lemma declares_eight_example :
  palette_ok example_palette = true /\
  declared (style_declarations example_palette some_children) =
    [ "color"; "display"; "position"; "border-bottom"; "background";
      "align-items"; "height"; "padding" ].
Proof.
  split; [reflexivity|].
  exact (declares_eight_properties example_palette some_children eq_refl).
Defined.

(** * Further properties *)

Module MoreFacts.











(** *** Plain texts are colour tokens *)





End MoreFacts.

Import MoreFacts.

(** X1: whatever the two tokens are, empty or not, well formed or not, the
    style text of a render contains [border-bottom: 1px solid G;] and
    [background: W;] with the tokens spliced in as they are. *)
Theorem tokens_spliced_verbatim (Colors : Palette) (props : Props) :
  includes (style Colors props)
    ("border-bottom: 1px solid " ++ Gray200 Colors ++ ";") = true /\
  includes (style Colors props) ("background: " ++ White Colors ++ ";") = true.
Proof.
  split; [apply style_includes_border | apply style_includes_background].
Qed.

(** X2: the style tells the tokens.  Two renders under palettes of colour
    tokens that have the same style text were given the same [Gray200] and the
    same [White]. *)
Theorem style_tells_tokens
    (Colors1 Colors2 : Palette) (props1 props2 : Props) :
  palette_ok Colors1 = true ->
  palette_ok Colors2 = true ->
  style Colors1 props1 = style Colors2 props2 ->
  Gray200 Colors1 = Gray200 Colors2 /\ White Colors1 = White Colors2.
Proof.
  intros ok1 ok2 E.
  assert (D : style_declarations Colors1 props1 =
              style_declarations Colors2 props2)
    by (unfold style_declarations; now rewrite E).
  rewrite (declarations_style _ _ ok1), (declarations_style _ _ ok2) in D.
  injection D as Hg Hw.
  split; [exact Hg | exact Hw].
Qed.

Lemma style_tells_tokens_example :
  Gray200 example_palette =
    Gray200 {| Gray200 := "#B8C1CC"; White := "#FFFFFF";
               other_tokens := [("Blue500", "#1974E8")] |} /\
  White example_palette =
    White {| Gray200 := "#B8C1CC"; White := "#FFFFFF";
             other_tokens := [("Blue500", "#1974E8")] |}.
Proof.
  exact (style_tells_tokens example_palette
           {| Gray200 := "#B8C1CC"; White := "#FFFFFF";
              other_tokens := [("Blue500", "#1974E8")] |}
           no_children some_children eq_refl eq_refl eq_refl).
Defined.

(** X4: under a palette of colour tokens, no declaration of the style is
    overridden by a later one: the value the style gives a declared property is
    the value its declaration wrote. *)
Theorem every_declaration_effective
    (Colors : Palette) (props : Props) (d : Declaration) :
  palette_ok Colors = true ->
  In d (style_declarations Colors props) ->
  computed (style_declarations Colors props) (property d) = Some (value d).
Proof.
  intros ok. rewrite (declarations_style _ _ ok). intros H.
  repeat (destruct H as [<-|H]; [reflexivity|]). elim H.
Qed.

Lemma every_declaration_effective_example :
  computed (style_declarations example_palette some_children) "height" =
  Some "47px".
Proof.
  apply (every_declaration_effective example_palette some_children
           {| property := "height"; value := "47px" |} eq_refl).
  do 6 right. now left.
Defined.



